(** * Renogy Rover register driver: embedding and properties

    A shallow embedding of [solarshed/controllers/renogy_rover.py].

    The driver subclasses [minimalmodbus.Instrument]; every accessor performs
    one register read and decodes the raw word with Python integer
    operations.  Python integers are unbounded, so they are modelled as [Z]
    with [Z.land] for [&] and [Z.shiftr] for [>>]; Python floats are IEEE
    binary64 and are modelled by the kernel's primitive floats; the two
    module-level dicts are finite maps; the [Enum] class is an inductive
    type with its member table.  The methods run in a small state and
    exception monad over the instrument. *)

From Stdlib Require Import ZArith QArith Qabs Lia Lqa List String Ascii.
From Stdlib Require Import DecimalString DecimalFacts DecimalZ.
From Stdlib Require Import PrimFloat FloatOps SpecFloat Uint63.
From stdpp Require Import gmap.

Open Scope Z_scope.
Open Scope string_scope.

(** ** Python values and exceptions *)

(** The exceptions the modelled code can raise. *)
Inductive exn : Type :=
| ValueError      (* Enum call on a value that is no member's value;
                     a write request the library refuses *)
| AttributeError  (* attribute access on an object that lacks it *)
| IndexError.     (* list index out of range *)

Inductive result (A : Type) : Type :=
| Ok (a : A)
| Raise (e : exn).
Arguments Ok {A} a.
Arguments Raise {A} e.

(** [str(n)] / ['{}'.format(n)] for an [int]: decimal digits, a leading
    minus sign for negative numbers. *)
Definition format_int (n : Z) : string :=
  NilZero.string_of_int (Z.to_int n).

(** Exact value of a float, when it is finite. *)
Definition float_to_Q (f : float) : option Q :=
  match Prim2SF f with
  | S754_zero _ => Some 0%Q
  | S754_finite s m e =>
      let n := if s then Z.neg m else Z.pos m in
      Some (match e with
            | Z0 => inject_Z n
            | Z.pos p => inject_Z (n * Z.pow_pos 2 p)
            | Z.neg p => Qmake n (Pos.pow 2 p)
            end)
  | _ => None
  end.

(** ** Lookup tables *)

Definition BATTERY_TYPE : gmap Z string :=
  {[ 1 := "open";
     2 := "sealed";
     3 := "gel";
     4 := "lithium";
     5 := "self-customized" ]}.

Definition CHARGING_STATE : gmap Z string :=
  {[ 0 := "deactivated";
     1 := "activated";
     2 := "mppt";
     3 := "equalizing";
     4 := "boost";
     5 := "floating";
     6 := "current limiting" ]}.

(** ** The [LoadMode] enumeration *)

Inductive LoadMode : Type :=
| SOLE_LIGHT_CONTROL
| MANUAL
| DELAY_1_HR
| DELAY_2_HR
| DELAY_3_HR
| DELAY_4_HR
| DELAY_5_HR
| DELAY_6_HR
| DELAY_7_HR
| DELAY_8_HR
| DELAY_9_HR
| DELAY_10_HR
| DELAY_11_HR
| DELAY_12_HR
| DELAY_13_HR
| DELAY_14_HR
| DEBUG
| ALWAYS_ON.

(** [member.value] *)
Definition LoadMode_value (m : LoadMode) : Z :=
  match m with
  | SOLE_LIGHT_CONTROL => 0x00
  | MANUAL => 0x0F
  | DELAY_1_HR => 0x01
  | DELAY_2_HR => 0x02
  | DELAY_3_HR => 0x03
  | DELAY_4_HR => 0x04
  | DELAY_5_HR => 0x05
  | DELAY_6_HR => 0x06
  | DELAY_7_HR => 0x07
  | DELAY_8_HR => 0x08
  | DELAY_9_HR => 0x09
  | DELAY_10_HR => 0x0A
  | DELAY_11_HR => 0x0B
  | DELAY_12_HR => 0x0C
  | DELAY_13_HR => 0x0D
  | DELAY_14_HR => 0x0E
  | DEBUG => 0x10
  | ALWAYS_ON => 0x11
  end.

(** [member.name] *)
Definition LoadMode_name (m : LoadMode) : string :=
  match m with
  | SOLE_LIGHT_CONTROL => "SOLE_LIGHT_CONTROL"
  | MANUAL => "MANUAL"
  | DELAY_1_HR => "DELAY_1_HR"
  | DELAY_2_HR => "DELAY_2_HR"
  | DELAY_3_HR => "DELAY_3_HR"
  | DELAY_4_HR => "DELAY_4_HR"
  | DELAY_5_HR => "DELAY_5_HR"
  | DELAY_6_HR => "DELAY_6_HR"
  | DELAY_7_HR => "DELAY_7_HR"
  | DELAY_8_HR => "DELAY_8_HR"
  | DELAY_9_HR => "DELAY_9_HR"
  | DELAY_10_HR => "DELAY_10_HR"
  | DELAY_11_HR => "DELAY_11_HR"
  | DELAY_12_HR => "DELAY_12_HR"
  | DELAY_13_HR => "DELAY_13_HR"
  | DELAY_14_HR => "DELAY_14_HR"
  | DEBUG => "DEBUG"
  | ALWAYS_ON => "ALWAYS_ON"
  end.

(** [list(LoadMode)]: the members in definition order. *)
Definition LoadMode_members : list LoadMode :=
  [ SOLE_LIGHT_CONTROL; MANUAL;
    DELAY_1_HR; DELAY_2_HR; DELAY_3_HR; DELAY_4_HR; DELAY_5_HR;
    DELAY_6_HR; DELAY_7_HR; DELAY_8_HR; DELAY_9_HR; DELAY_10_HR;
    DELAY_11_HR; DELAY_12_HR; DELAY_13_HR; DELAY_14_HR;
    DEBUG; ALWAYS_ON ].

(** [LoadMode(value)]: the member carrying that value, [ValueError] when
    there is none. *)
Definition LoadMode_call (value : Z) : result LoadMode :=
  match List.find (fun m => (LoadMode_value m =? value)%Z) LoadMode_members with
  | Some m => Ok m
  | None => Raise ValueError
  end.

(** What a caller can hand to a method that reads [.value] off its
    argument: a member of the enumeration, a bare integer, or any other
    object, described by its integer-valued attributes. *)
Inductive pyobj : Type :=
| PyMember (m : LoadMode)
| PyInt (n : Z)
| PyObject (attrs : list (string * Z)).

Fixpoint assoc (name : string) (attrs : list (string * Z)) : option Z :=
  match attrs with
  | [] => None
  | (k, v) :: rest => if String.eqb k name then Some v else assoc name rest
  end.

(** [obj.value] *)
Definition getattr_value (obj : pyobj) : result Z :=
  match obj with
  | PyMember m => Ok (LoadMode_value m)
  | PyInt _ => Raise AttributeError
  | PyObject attrs =>
      match assoc "value" attrs with
      | Some v => Ok v
      | None => Raise AttributeError
      end
  end.

(** ** The instrument and its monad *)

(** A write request handed to the transport:
    [write_register(registeraddress, value, functioncode)]. *)
Record request : Type := Request {
  registeraddress : Z;
  value : Z;
  functioncode : Z
}.

(** The instrument as the driver sees it: what the device answers for each
    holding register, the requests handed to the transport so far and the
    lines printed so far (both oldest first). *)
Record Instrument : Type := {
  holding : Z -> Z;
  written : list request;
  stdout : list string
}.

Definition M (A : Type) : Type := Instrument -> result A * Instrument.

#[global] Instance M_ret : MRet M := fun A a dev => (Ok a, dev).

#[global] Instance M_bind : MBind M := fun A B k m dev =>
  match m dev with
  | (Ok a, dev') => k a dev'
  | (Raise e, dev') => (Raise e, dev')
  end.

Definition lift {A : Type} (r : result A) : M A := fun dev => (r, dev).

(** [minimalmodbus.Instrument.read_register(registeraddress)] with no
    decimals: the register as an [int]. *)
Definition read_register (registeraddress : Z) : M Z :=
  fun dev => (Ok (holding dev registeraddress), dev).

(** [read_register(registeraddress, numberOfDecimals=d)] for [d > 0]:
    minimalmodbus returns [fullregister / float(10 ** d)], a float.  The
    register is a 16-bit word, far below 2^53, so its conversion to a float
    is exact and the only rounding is that of the division. *)
Definition read_register_decimals (registeraddress : Z) (numberOfDecimals : nat)
  : M float :=
  fun dev =>
    let fullregister := holding dev registeraddress in
    let divisor := 10 ^ Z.of_nat numberOfDecimals in
    (Ok (PrimFloat.div (PrimFloat.of_uint63 (Uint63.of_Z fullregister))
                       (PrimFloat.of_uint63 (Uint63.of_Z divisor))), dev).

(** [read_registers(registeraddress, numberOfRegisters)] *)
Definition read_registers (registeraddress : Z) (numberOfRegisters : nat)
  : M (list Z) :=
  fun dev =>
    (Ok (List.map (fun i => holding dev (registeraddress + Z.of_nat i))
                  (List.seq 0 numberOfRegisters)), dev).

(** What minimalmodbus checks before it sends a write request: the
    function code is 6 or 16, and the register address and the value (packed
    as an unsigned 16-bit number) lie in 0..65535. *)
Definition write_request_ok (registeraddress value functioncode : Z) : bool :=
  ((functioncode =? 6)%Z || (functioncode =? 16)%Z)
  && (0 <=? registeraddress)%Z && (registeraddress <=? 0xFFFF)%Z
  && (0 <=? value)%Z && (value <=? 0xFFFF)%Z.

(** [write_register(registeraddress, value, functioncode)]: the request is
    handed to the transport, unless the library refuses it with
    [ValueError] before anything is sent. *)
Definition write_register (registeraddress value functioncode : Z) : M unit :=
  fun dev =>
    if write_request_ok registeraddress value functioncode
    then (Ok tt, {| holding := holding dev;
                    written := written dev
                               ++ [Request registeraddress value functioncode];
                    stdout := stdout dev |})
    else (Raise ValueError, dev).

(** [print(line)] *)
Definition print (line : string) : M unit :=
  fun dev =>
    (Ok tt, {| holding := holding dev;
               written := written dev;
               stdout := stdout dev ++ [line] |}).

(** [registers[i]] *)
Definition index (registers : list Z) (i : nat) : M Z :=
  match registers !! i with
  | Some w => mret w
  | None => lift (Raise IndexError)
  end.

(** ** The methods of [RenogyRover] *)

Definition system_voltage_current : M (Z * Z) :=
  register ← read_register 10;
  let amps := Z.land register 0x00ff in
  let voltage := Z.shiftr register 8 in
  mret (voltage, amps).

Definition version : M (string * string) :=
  registers ← read_registers 20 4;
  r0 ← index registers 0;
  let soft_major := Z.land r0 0x00ff in
  r1 ← index registers 1;
  let soft_minor := Z.shiftr r1 8 in
  r1 ← index registers 1;
  let soft_patch := Z.land r1 0x00ff in
  r2 ← index registers 2;
  let hard_major := Z.land r2 0x00ff in
  r3 ← index registers 3;
  let hard_minor := Z.shiftr r3 8 in
  r3 ← index registers 3;
  let hard_patch := Z.land r3 0x00ff in
  let software_version :=
    "V" ++ format_int soft_major ++ "." ++ format_int soft_minor
        ++ "." ++ format_int soft_patch in
  let hardware_version :=
    "V" ++ format_int hard_major ++ "." ++ format_int hard_minor
        ++ "." ++ format_int hard_patch in
  mret (software_version, hardware_version).

Definition serial_number : M string :=
  registers ← read_registers 24 2;
  r0 ← index registers 0;
  r1 ← index registers 1;
  mret (format_int r0 ++ format_int r1).

Definition battery_percentage : M Z :=
  register ← read_register 256;
  mret (Z.land register 0x00ff).

Definition battery_voltage : M float :=
  read_register_decimals 257 1.

Definition battery_temperature : M Z :=
  register ← read_register 259;
  let battery_temp_bits := Z.land register 0x00ff in
  let temp_value := Z.land battery_temp_bits 0x0ff in
  let sign := Z.shiftr battery_temp_bits 7 in
  let battery_temp := if (sign =? 1)%Z then - (temp_value - 128) else temp_value in
  mret battery_temp.

Definition controller_temperature : M Z :=
  register ← read_register 259;
  let controller_temp_bits := Z.shiftr register 8 in
  let temp_value := Z.land controller_temp_bits 0x0ff in
  let sign := Z.shiftr controller_temp_bits 7 in
  let controller_temp := if (sign =? 1)%Z then - (temp_value - 128) else temp_value in
  mret controller_temp.

Definition charging_status : M Z :=
  register ← read_register 288;
  mret (Z.land register 0x00ff).

(** [dict.get(key)] gives [None] for a missing key; Python's [None] is the
    [None] of [option]. *)
Definition charging_status_label : M (option string) :=
  status ← charging_status;
  mret (CHARGING_STATE !! status).

Definition voltage_setting : M (Z * Z) :=
  register ← read_register 57347;
  let setting := Z.shiftr register 8 in
  let recognized_voltage := Z.land register 0x00ff in
  mret (setting, recognized_voltage).

Definition battery_type : M (option string) :=
  register ← read_register 57348;
  mret (BATTERY_TYPE !! register).

Definition load_mode : M LoadMode :=
  register ← read_register 0xE01D;
  lift (LoadMode_call register).

(** [print] joins its two arguments with one space. *)
Definition set_load_mode (load_mode : pyobj) : M unit :=
  v ← lift (getattr_value load_mode);
  _ ← print ("setting load mode to: " ++ " " ++ format_int v);
  v ← lift (getattr_value load_mode);
  write_register 0xE01D v 0x06.

Definition set_load_on : M unit :=
  write_register 0x010A 0x1 0x06.

Definition set_load_off : M unit :=
  write_register 0x010A 0x0 0x06.

(** An instrument whose device answers [regs], with nothing written or
    printed yet. *)
Definition fresh (regs : Z -> Z) : Instrument :=
  {| holding := regs; written := []; stdout := [] |}.

(** A register file given by a finite table, zero elsewhere. *)
Definition registers_of (table : list (Z * Z)) : Z -> Z :=
  fun a =>
    match List.find (fun kv => (fst kv =? a)%Z) table with
    | Some kv => snd kv
    | None => 0
    end.

(** The exact value of a float result. *)
Definition exact_result (r : result float) : option Q :=
  match r with
  | Ok f => float_to_Q f
  | Raise _ => None
  end.

(** [p] holds of every word from 0 up to [n - 1]. *)
Definition words_step (p : Z -> bool) (st : Z * bool) : Z * bool :=
  (fst st + 1, snd st && p (fst st)).

Definition all_words (p : Z -> bool) (n : positive) : bool :=
  snd (Pos.iter (words_step p) (0, true) n).

(** Decides, for the word [w] in register 257, that [battery_voltage]
    returns a finite float within relative error 2^-53 of the rational
    [w / 10], and that the float is that rational exactly when 5 divides
    [w]. *)
Definition battery_voltage_rounding (w : Z) : bool :=
  match exact_result (fst (battery_voltage (fresh (fun _ => w)))) with
  | Some q =>
      Qle_bool (Qabs (q - (w # 10)) * inject_Z (2 ^ 53)) (w # 10)
      && Bool.eqb (Qeq_bool q (w # 10)) (w mod 5 =? 0)%Z
  | None => false
  end.

(** ** The remaining methods of [RenogyRover] *)

(** [chr(n)] for a byte. *)
Definition chr (n : Z) : ascii := ascii_of_N (Z.to_N n).

(** [ord(c)] *)
Definition ord (c : ascii) : Z := Z.of_N (N_of_ascii c).

(** [read_string(registeraddress, numberOfRegisters)]: minimalmodbus hands
    back the payload bytes as text, two characters for each register, the
    high byte first; nothing is stripped. *)
Definition read_string (registeraddress : Z) (numberOfRegisters : nat)
  : M string :=
  fun dev =>
    (Ok (string_of_list_ascii
           (List.flat_map
              (fun i =>
                 let w := holding dev (registeraddress + Z.of_nat i) in
                 [chr (Z.shiftr w 8); chr (Z.land w 0xff)])
              (List.seq 0 numberOfRegisters))), dev).

Definition model : M string :=
  read_string 12 8.

Definition load_voltage : M float :=
  read_register_decimals 260 1.

Definition load_current : M float :=
  read_register_decimals 261 2.

Definition load_power : M Z :=
  read_register 262.

Definition solar_voltage : M float :=
  read_register_decimals 263 1.

Definition solar_current : M float :=
  read_register_decimals 264 2.

Definition solar_power : M Z :=
  read_register 265.

Definition charging_amp_hours_today : M Z :=
  read_register 273.

Definition discharging_amp_hours_today : M Z :=
  read_register 274.

Definition power_generation_today : M Z :=
  read_register 275.

Definition battery_capacity : M Z :=
  read_register 57346.

(** The three voltage readings and the two current readings, by name. *)
Inductive voltage_reading : Type := BatteryVoltage | LoadVoltage | SolarVoltage.

Inductive current_reading : Type := LoadCurrent | SolarCurrent.

Definition read_voltage (which : voltage_reading) : M float :=
  match which with
  | BatteryVoltage => battery_voltage
  | LoadVoltage => load_voltage
  | SolarVoltage => solar_voltage
  end.

Definition voltage_register (which : voltage_reading) : Z :=
  match which with
  | BatteryVoltage => 257
  | LoadVoltage => 260
  | SolarVoltage => 263
  end.

Definition read_current (which : current_reading) : M float :=
  match which with
  | LoadCurrent => load_current
  | SolarCurrent => solar_current
  end.

Definition current_register (which : current_reading) : Z :=
  match which with
  | LoadCurrent => 261
  | SolarCurrent => 264
  end.

(** Decides, for the word [w] in register 261, that [load_current] returns
    a finite float within relative error 2^-53 of the rational [w / 100],
    and that the float is that rational exactly when 25 divides [w]. *)
Definition load_current_rounding (w : Z) : bool :=
  match exact_result (fst (load_current (fresh (fun _ => w)))) with
  | Some q =>
      Qle_bool (Qabs (q - (w # 100)) * inject_Z (2 ^ 53)) (w # 100)
      && Bool.eqb (Qeq_bool q (w # 100)) (w mod 25 =? 0)%Z
  | None => false
  end.

(** A relay command: [set_load_on()] or [set_load_off()]. *)
Definition set_load (on : bool) : M unit :=
  if on then set_load_on else set_load_off.

(** A run of relay commands, one call after the other. *)
Fixpoint set_load_run (commands : list bool) : M unit :=
  match commands with
  | [] => mret tt
  | on :: rest => _ ← set_load on; set_load_run rest
  end.

(** A device in daylight: 12.1 V at the load, 18.5 V and 2.50 A from the
    panel, 0.40 A into the load, the battery at 13.2 V. *)
Definition sample_device : Instrument :=
  fresh (registers_of
           [(257, 132); (260, 121); (261, 40); (263, 185); (264, 250)]).

(** A character is a decimal digit. *)
Definition is_digit (c : ascii) : bool :=
  (48 <=? ord c)%Z && (ord c <=? 57)%Z.

(** * Properties *)

(** ** Bit slicing as arithmetic *)

Lemma land_0xff (w : Z) : Z.land w 0x00ff = w mod 256.
Proof. change 0x00ff with (Z.ones 8). now rewrite Z.land_ones. Qed.

Lemma shiftr_8 (w : Z) : Z.shiftr w 8 = w / 256.
Proof. now rewrite Z.shiftr_div_pow2. Qed.

Lemma shiftr_7 (w : Z) : Z.shiftr w 7 = w / 128.
Proof. now rewrite Z.shiftr_div_pow2. Qed.

Lemma lor_shiftl_add (a b n : Z) :
  0 <= n -> 0 <= b < 2 ^ n -> Z.lor (Z.shiftl a n) b = a * 2 ^ n + b.
Proof.
  intros Hn Hb.
  assert (Hdisjoint : Z.land (Z.shiftl a n) b = 0).
  { apply Z.bits_inj'; intros i Hi.
    rewrite Z.land_spec, Z.bits_0.
    destruct (Z.lt_ge_cases i n) as [Hlt | Hge].
    - now rewrite Z.shiftl_spec_low.
    - rewrite <- (Z.mod_small b (2 ^ n)) by lia.
      rewrite Z.mod_pow2_bits_high by lia.
      apply andb_false_r. }
  rewrite <- Z.lxor_lor by exact Hdisjoint.
  rewrite <- Z.add_nocarry_lxor by exact Hdisjoint.
  now rewrite Z.shiftl_mul_pow2.
Qed.

(** Closes [lo <= w < hi] (or [lo <= w <= hi]) on a closed term. *)
Ltac word_range :=
  vm_compute; split; [intros Hcmp; discriminate Hcmp | first [reflexivity | intros Hcmp; discriminate Hcmp]].

Ltac slices :=
  repeat rewrite land_0xff in *; repeat rewrite shiftr_8 in *;
  repeat rewrite shiftr_7 in *.

(** What the two temperature methods compute from a byte [b]: the byte
    itself below 128, and [128 - b] from 128 on. *)
Lemma temperature_of_byte (b : Z) :
  0 <= b < 256 ->
  (if (Z.shiftr b 7 =? 1)%Z then - (Z.land b 0x0ff - 128) else Z.land b 0x0ff)
  = if (b <? 128)%Z then b else 128 - b.
Proof.
  intros Hb. slices. rewrite (Z.mod_small b 256) by lia.
  destruct (Z.ltb_spec b 128) as [Hlt | Hge].
  - rewrite (Z.div_small b 128) by lia. reflexivity.
  - assert (Hq : b / 128 = 1) by (Z.to_euclidean_division_equations; lia).
    rewrite Hq. simpl. lia.
Qed.

Lemma battery_temperature_eq (dev : Instrument) :
  battery_temperature dev =
  (Ok (let b := holding dev 259 mod 256 in
       if (b <? 128)%Z then b else 128 - b), dev).
Proof.
  unfold battery_temperature, mbind, M_bind, read_register, mret, M_ret.
  cbv zeta. f_equal. f_equal.
  rewrite temperature_of_byte; rewrite land_0xff.
  - reflexivity.
  - apply Z.mod_pos_bound. lia.
Qed.

Lemma controller_temperature_eq (dev : Instrument) :
  0 <= holding dev 259 < 65536 ->
  controller_temperature dev =
  (Ok (let b := holding dev 259 / 256 in
       if (b <? 128)%Z then b else 128 - b), dev).
Proof.
  intros Hw.
  unfold controller_temperature, mbind, M_bind, read_register, mret, M_ret.
  cbv zeta. f_equal. f_equal.
  rewrite temperature_of_byte; rewrite shiftr_8.
  - reflexivity.
  - split.
    + apply Z.div_pos; lia.
    + apply Z.div_lt_upper_bound; lia.
Qed.

(** ** Temperatures (register 259) *)

(** C1, as the claim states it, fails: with the sign bit set and magnitude
    30 (byte 0x9E) neither method returns -(30 - 128) = 98; both return
    -30. *)
Lemma temperature_0x9E_is_not_98 :
  fst (battery_temperature (fresh (registers_of [(259, 0x009E)])))
    <> Ok (- (30 - 128)) /\
  fst (controller_temperature (fresh (registers_of [(259, 0x9E00)])))
    <> Ok (- (30 - 128)) /\
  fst (battery_temperature (fresh (registers_of [(259, 0x009E)]))) = Ok (-30) /\
  fst (controller_temperature (fresh (registers_of [(259, 0x9E00)]))) = Ok (-30).
Proof. vm_compute. repeat split; congruence. Qed.

(** C1, amended: for a temperature byte (s<<7)|m with magnitude m in
    [0,127] and sign bit s in {0,1}, battery_temperature (byte in the low
    half of register 259) and controller_temperature (byte in the high half)
    return m when s = 0 and -m when s = 1: 128 is subtracted from the whole
    byte, sign bit included. *)
Theorem temperature_decoding (dev : Instrument) (m s other : Z) :
  0 <= m <= 127 ->
  s = 0 \/ s = 1 ->
  0 <= other <= 255 ->
  let byte := Z.lor (Z.shiftl s 7) m in
  let decoded := if (s =? 0)%Z then m else - m in
  (holding dev 259 = Z.lor (Z.shiftl other 8) byte ->
   battery_temperature dev = (Ok decoded, dev)) /\
  (holding dev 259 = Z.lor (Z.shiftl byte 8) other ->
   controller_temperature dev = (Ok decoded, dev)).
Proof.
  intros Hm Hs Hother byte decoded.
  assert (Hbyte : byte = s * 128 + m).
  { unfold byte. rewrite lor_shiftl_add; lia. }
  split; intros Hreg.
  - rewrite battery_temperature_eq, Hreg.
    rewrite lor_shiftl_add by lia. cbv zeta.
    replace ((other * 2 ^ 8 + byte) mod 256) with byte
      by (Z.to_euclidean_division_equations; lia).
    subst decoded. do 2 f_equal.
    destruct Hs as [-> | ->]; simpl (_ =? _)%Z; cbv iota.
    + destruct (Z.ltb_spec byte 128); lia.
    + destruct (Z.ltb_spec byte 128); lia.
  - assert (Hw : holding dev 259 = byte * 256 + other).
    { rewrite Hreg, lor_shiftl_add; lia. }
    rewrite controller_temperature_eq by lia.
    rewrite Hw. cbv zeta.
    replace ((byte * 256 + other) / 256) with byte
      by (Z.to_euclidean_division_equations; lia).
    subst decoded. do 2 f_equal.
    destruct Hs as [-> | ->]; simpl (_ =? _)%Z; cbv iota.
    + destruct (Z.ltb_spec byte 128); lia.
    + destruct (Z.ltb_spec byte 128); lia.
Qed.

(** The amended C1 at byte 0x9E, in either half of the word. *)
Lemma temperature_decoding_witness :
  battery_temperature (fresh (registers_of [(259, 0x009E)]))
    = (Ok (-30), fresh (registers_of [(259, 0x009E)])) /\
  controller_temperature (fresh (registers_of [(259, 0x9E00)]))
    = (Ok (-30), fresh (registers_of [(259, 0x9E00)])).
Proof.
  split.
  - apply (proj1 (temperature_decoding (fresh (registers_of [(259, 0x009E)]))
                    30 1 0 ltac:(lia) (or_intror eq_refl) ltac:(lia))).
    reflexivity.
  - apply (proj2 (temperature_decoding (fresh (registers_of [(259, 0x9E00)]))
                    30 1 0 ltac:(lia) (or_intror eq_refl) ltac:(lia))).
    reflexivity.
Defined.

(** C9: for every 16-bit word in register 259 both decoded temperatures lie
    in [-127, 127], and the decoding of a byte is not injective: byte 0x80
    gives 0, as byte 0x00 does. *)
Theorem temperature_range_collision (dev dev' : Instrument) :
  0 <= holding dev 259 < 65536 ->
  0 <= holding dev' 259 < 65536 ->
  (exists tb tc : Z,
      battery_temperature dev = (Ok tb, dev) /\
      controller_temperature dev = (Ok tc, dev) /\
      -127 <= tb <= 127 /\ -127 <= tc <= 127) /\
  (Z.land (holding dev 259) 0xff = 0x80 ->
   Z.land (holding dev' 259) 0xff = 0x00 ->
   fst (battery_temperature dev) = Ok 0 /\
   fst (battery_temperature dev') = Ok 0) /\
  (Z.shiftr (holding dev 259) 8 = 0x80 ->
   Z.shiftr (holding dev' 259) 8 = 0x00 ->
   fst (controller_temperature dev) = Ok 0 /\
   fst (controller_temperature dev') = Ok 0).
Proof.
  intros Hw Hw'.
  rewrite !battery_temperature_eq, !controller_temperature_eq by assumption.
  cbv zeta. slices. simpl fst.
  split; [| split].
  - eexists _, _. split; [reflexivity |]. split; [reflexivity |].
    assert (0 <= holding dev 259 mod 256 < 256) by (apply Z.mod_pos_bound; lia).
    assert (0 <= holding dev 259 / 256 < 256)
      by (Z.to_euclidean_division_equations; lia).
    split.
    + destruct (Z.ltb_spec (holding dev 259 mod 256) 128); lia.
    + destruct (Z.ltb_spec (holding dev 259 / 256) 128); lia.
  - intros -> ->. split; reflexivity.
  - intros -> ->. split; reflexivity.
Qed.

(** C9 at the words 0x8080 and 0x0000. *)
Lemma temperature_range_collision_witness :
  fst (battery_temperature (fresh (registers_of [(259, 0x8080)]))) = Ok 0 /\
  fst (battery_temperature (fresh (registers_of [(259, 0x0000)]))) = Ok 0 /\
  fst (controller_temperature (fresh (registers_of [(259, 0x8080)]))) = Ok 0 /\
  fst (controller_temperature (fresh (registers_of [(259, 0x0000)]))) = Ok 0.
Proof.
  destruct (temperature_range_collision
              (fresh (registers_of [(259, 0x8080)]))
              (fresh (registers_of [(259, 0x0000)]))
              ltac:(word_range) ltac:(word_range)) as (_ & Hlow & Hhigh).
  destruct (Hlow eq_refl eq_refl) as [Hb Hb'].
  destruct (Hhigh eq_refl eq_refl) as [Hc Hc'].
  exact (conj Hb (conj Hb' (conj Hc Hc'))).
Defined.

(** ** System voltage and current (register 10) *)

(** C8: for every 16-bit word w, system_voltage_current returns the pair
    (w >> 8, w & 0xFF), voltage first: the two bytes of the word; word
    0x0C05 gives voltage 12 and current 5. *)
Theorem system_voltage_current_split (dev : Instrument) :
  0 <= holding dev 10 < 65536 ->
  let w := holding dev 10 in
  system_voltage_current dev = (Ok (Z.shiftr w 8, Z.land w 0xFF), dev) /\
  0 <= Z.shiftr w 8 <= 255 /\
  0 <= Z.land w 0xFF <= 255 /\
  w = Z.shiftr w 8 * 256 + Z.land w 0xFF /\
  (w = 0x0C05 -> system_voltage_current dev = (Ok (12, 5), dev)).
Proof.
  intros Hw w. subst w.
  split; [reflexivity |].
  split; [| split; [| split]].
  - rewrite shiftr_8. Z.to_euclidean_division_equations; lia.
  - change 0xFF with 0x00ff. rewrite land_0xff.
    Z.to_euclidean_division_equations; lia.
  - change 0xFF with 0x00ff. rewrite land_0xff, shiftr_8.
    Z.to_euclidean_division_equations; lia.
  - intros Heq. unfold system_voltage_current, mbind, M_bind, read_register.
    rewrite Heq. reflexivity.
Qed.

(** C8 at the word 0x0C05. *)
Lemma system_voltage_current_split_witness :
  system_voltage_current (fresh (registers_of [(10, 0x0C05)]))
  = (Ok (12, 5), fresh (registers_of [(10, 0x0C05)])).
Proof.
  apply (system_voltage_current_split (fresh (registers_of [(10, 0x0C05)]))
           ltac:(word_range)).
  reflexivity.
Defined.

(** ** Categorical labels *)

Lemma BATTERY_TYPE_missing (code : Z) :
  BATTERY_TYPE !! code = None <-> ~ 1 <= code <= 5.
Proof.
  unfold BATTERY_TYPE.
  rewrite !lookup_insert_None, lookup_singleton_None. lia.
Qed.

Lemma CHARGING_STATE_missing (code : Z) :
  CHARGING_STATE !! code = None <-> ~ 0 <= code <= 6.
Proof.
  unfold CHARGING_STATE.
  rewrite !lookup_insert_None, lookup_singleton_None. lia.
Qed.

Lemma BATTERY_TYPE_labels (code : Z) : BATTERY_TYPE !! code <> Some "unknown".
Proof.
  destruct (BATTERY_TYPE !! code) as [label |] eqn:Hlookup; [| discriminate].
  assert (Hcode : 1 <= code <= 5).
  { destruct (decide (1 <= code <= 5)) as [| Hout]; [assumption |].
    apply BATTERY_TYPE_missing in Hout. congruence. }
  assert (Hcases : code = 1 \/ code = 2 \/ code = 3 \/ code = 4 \/ code = 5) by lia.
  destruct Hcases as [-> | [-> | [-> | [-> | ->]]]];
    vm_compute in Hlookup; injection Hlookup as <-; discriminate.
Qed.

Lemma CHARGING_STATE_labels (code : Z) : CHARGING_STATE !! code <> Some "unknown".
Proof.
  destruct (CHARGING_STATE !! code) as [label |] eqn:Hlookup; [| discriminate].
  assert (Hcode : 0 <= code <= 6).
  { destruct (decide (0 <= code <= 6)) as [| Hout]; [assumption |].
    apply CHARGING_STATE_missing in Hout. congruence. }
  assert (Hcases : code = 0 \/ code = 1 \/ code = 2 \/ code = 3 \/ code = 4
                   \/ code = 5 \/ code = 6) by lia.
  destruct Hcases as [-> | [-> | [-> | [-> | [-> | [-> | ->]]]]]];
    vm_compute in Hlookup; injection Hlookup as <-; discriminate.
Qed.

(** C2, as the claim states it, fails: with battery-type code 99 in register
    57348, and with charging-state code 99 in register 288, the methods
    return None, not the label "unknown". *)
Lemma code_99_is_not_unknown :
  fst (battery_type (fresh (registers_of [(57348, 99)]))) = Ok None /\
  fst (charging_status_label (fresh (registers_of [(288, 99)]))) = Ok None /\
  fst (battery_type (fresh (registers_of [(57348, 99)]))) <> Ok (Some "unknown") /\
  fst (charging_status_label (fresh (registers_of [(288, 99)])))
    <> Ok (Some "unknown").
Proof. vm_compute. repeat split; congruence. Qed.

(** C2, amended: for every register value not present in the battery-type
    or charging-state table, battery_type and charging_status_label do not
    fail; they return None (the result of dict.get on a missing key), and
    neither method ever returns the label "unknown". *)
Theorem missing_code_gives_None (dev : Instrument) :
  (BATTERY_TYPE !! holding dev 57348 = None ->
   battery_type dev = (Ok None, dev)) /\
  (CHARGING_STATE !! Z.land (holding dev 288) 0x00ff = None ->
   charging_status_label dev = (Ok None, dev)) /\
  fst (battery_type dev) <> Ok (Some "unknown") /\
  fst (charging_status_label dev) <> Ok (Some "unknown").
Proof.
  unfold battery_type, charging_status_label, charging_status.
  unfold mbind, M_bind, mret, M_ret, read_register. simpl fst.
  repeat split.
  - intros ->. reflexivity.
  - intros ->. reflexivity.
  - intros Heq. injection Heq as Heq. exact (BATTERY_TYPE_labels _ Heq).
  - intros Heq. injection Heq as Heq. exact (CHARGING_STATE_labels _ Heq).
Qed.

(** The amended C2 at code 99 in both registers. *)
Lemma missing_code_gives_None_witness :
  battery_type (fresh (registers_of [(57348, 99); (288, 99)]))
    = (Ok None, fresh (registers_of [(57348, 99); (288, 99)])) /\
  charging_status_label (fresh (registers_of [(57348, 99); (288, 99)]))
    = (Ok None, fresh (registers_of [(57348, 99); (288, 99)])).
Proof.
  destruct (missing_code_gives_None
              (fresh (registers_of [(57348, 99); (288, 99)])))
    as (Hbattery & Hcharging & _).
  split.
  - apply Hbattery. reflexivity.
  - apply Hcharging. reflexivity.
Defined.

(** ** Version and serial number *)

(** C3, as the claim states it, fails: for the words [0x0102, 0x0304,
    0x0506, 0x0708] the software version is "V2.3.4" (w0 & 0xFF is 2 and
    w1 >> 8 is 3), not "V1.2.4". *)
Lemma version_0x0102_is_not_V1_2_4 :
  fst (version (fresh (registers_of
         [(20, 0x0102); (21, 0x0304); (22, 0x0506); (23, 0x0708)])))
    = Ok ("V2.3.4", "V6.7.8") /\
  "V2.3.4" <> "V1.2.4".
Proof. split; [vm_compute; reflexivity | discriminate]. Qed.

(** C3, amended: version slices its four words as soft_major = w0 & 0xFF,
    soft_minor = w1 >> 8, soft_patch = w1 & 0xFF, hard_major = w2 & 0xFF,
    hard_minor = w3 >> 8, hard_patch = w3 & 0xFF and formats each triple as
    "V{major}.{minor}.{patch}"; for the words [0x0102, 0x0304, 0x0506,
    0x0708] the software version is "V2.3.4" and the hardware version
    "V6.7.8". *)
Theorem version_slicing (dev : Instrument) :
  let w0 := holding dev 20 in
  let w1 := holding dev 21 in
  let w2 := holding dev 22 in
  let w3 := holding dev 23 in
  version dev =
    (Ok ("V" ++ format_int (Z.land w0 0xFF) ++ "." ++
                format_int (Z.shiftr w1 8) ++ "." ++
                format_int (Z.land w1 0xFF),
         "V" ++ format_int (Z.land w2 0xFF) ++ "." ++
                format_int (Z.shiftr w3 8) ++ "." ++
                format_int (Z.land w3 0xFF)), dev) /\
  ((w0, w1, w2, w3) = (0x0102, 0x0304, 0x0506, 0x0708) ->
   version dev = (Ok ("V2.3.4", "V6.7.8"), dev)).
Proof.
  intros w0 w1 w2 w3.
  assert (Heq : version dev =
    (Ok ("V" ++ format_int (Z.land w0 0xFF) ++ "." ++
                format_int (Z.shiftr w1 8) ++ "." ++
                format_int (Z.land w1 0xFF),
         "V" ++ format_int (Z.land w2 0xFF) ++ "." ++
                format_int (Z.shiftr w3 8) ++ "." ++
                format_int (Z.land w3 0xFF)), dev)) by reflexivity.
  split; [exact Heq |].
  intros Hwords. rewrite Heq.
  injection Hwords as -> -> -> ->. reflexivity.
Qed.

(** The amended C3 at the words [0x0102, 0x0304, 0x0506, 0x0708]. *)
Lemma version_slicing_witness :
  version (fresh (registers_of
     [(20, 0x0102); (21, 0x0304); (22, 0x0506); (23, 0x0708)]))
  = (Ok ("V2.3.4", "V6.7.8"),
     fresh (registers_of
       [(20, 0x0102); (21, 0x0304); (22, 0x0506); (23, 0x0708)])).
Proof.
  apply (proj2 (version_slicing (fresh (registers_of
     [(20, 0x0102); (21, 0x0304); (22, 0x0506); (23, 0x0708)])))).
  reflexivity.
Defined.

(** [format_int] prints a number that reads back as itself. *)
Lemma format_int_parse (n : Z) :
  option_map Z.of_int (NilZero.int_of_string (format_int n)) = Some n.
Proof.
  unfold format_int.
  assert (Hback : Z.of_int (Z.to_int n) = n) by apply DecimalZ.of_to.
  rewrite NilZero.isi.
  - simpl. now rewrite Hback.
  - intros Heq. rewrite Heq in Hback. destruct n; try discriminate.
  - intros Heq. rewrite Heq in Hback. destruct n; discriminate.
Qed.

Lemma unorm_fixed_D0 (u : Decimal.uint) :
  Decimal.unorm (Decimal.D0 u) = Decimal.D0 u -> u = Decimal.Nil.
Proof.
  intros Hfix. rewrite unorm_D0 in Hfix.
  destruct (Decimal.uint_eq_dec u Decimal.Nil) as [| Hnonnil]; [assumption |].
  pose proof (nb_digits_unorm u Hnonnil) as Hdigits.
  rewrite Hfix in Hdigits. simpl in Hdigits. lia.
Qed.

(** No padding: the digits of a positive number do not start with a zero. *)
Lemma format_int_unpadded (n : Z) (rest : string) :
  0 < n -> format_int n <> String "0" rest.
Proof.
  intros Hpos.
  assert (Hback : Z.of_int (Z.to_int n) = n) by apply DecimalZ.of_to.
  assert (Hnorm : Decimal.norm (Z.to_int n) = Z.to_int n).
  { rewrite <- DecimalZ.to_of. now rewrite Hback. }
  unfold format_int.
  destruct (Z.to_int n) as [u | u] eqn:Hint.
  - simpl in Hnorm. injection Hnorm as Hnorm.
    destruct u as [| u | u | u | u | u | u | u | u | u | u]; simpl; try discriminate.
    apply unorm_fixed_D0 in Hnorm. subst u. change (0 = n) in Hback. lia.
  - simpl. discriminate.
Qed.

(** C10: serial_number concatenates the unpadded decimal representations
    of its two words, and the result does not determine the words: the
    pairs (1, 23) and (12, 3) both give "123". *)
Theorem serial_number_not_injective :
  (forall dev : Instrument,
      serial_number dev
      = (Ok (format_int (holding dev 24) ++ format_int (holding dev 25)), dev)) /\
  (forall n : Z,
      option_map Z.of_int (NilZero.int_of_string (format_int n)) = Some n) /\
  (forall (n : Z) (rest : string), 0 < n -> format_int n <> String "0" rest) /\
  format_int 0 = "0" /\
  (1, 23) <> (12, 3) /\
  fst (serial_number (fresh (registers_of [(24, 1); (25, 23)]))) = Ok "123" /\
  fst (serial_number (fresh (registers_of [(24, 12); (25, 3)]))) = Ok "123".
Proof.
  split; [intros dev; reflexivity |].
  split; [exact format_int_parse |].
  split; [exact format_int_unpadded |].
  split; [reflexivity |].
  split; [discriminate |].
  split; reflexivity.
Qed.

(** ** The load mode *)

Lemma LoadMode_call_value (m : LoadMode) : LoadMode_call (LoadMode_value m) = Ok m.
Proof. destruct m; reflexivity. Qed.

Lemma LoadMode_call_Ok (v : Z) (m : LoadMode) :
  LoadMode_call v = Ok m -> LoadMode_value m = v.
Proof.
  unfold LoadMode_call.
  destruct (List.find _ LoadMode_members) as [m' |] eqn:Hfind; [| discriminate].
  intros [= <-]. apply List.find_some in Hfind as [_ Heq]. lia.
Qed.

Lemma LoadMode_call_missing (v : Z) :
  (forall m, LoadMode_value m <> v) -> LoadMode_call v = Raise ValueError.
Proof.
  intros Hmissing. unfold LoadMode_call.
  destruct (List.find _ LoadMode_members) as [m |] eqn:Hfind; [| reflexivity].
  apply List.find_some in Hfind as [_ Heq].
  destruct (Hmissing m). lia.
Qed.

Lemma LoadMode_value_range (m : LoadMode) : 0x00 <= LoadMode_value m <= 0x11.
Proof. destruct m; simpl; lia. Qed.

Lemma LoadMode_value_inj (m m' : LoadMode) :
  LoadMode_value m = LoadMode_value m' -> m = m'.
Proof.
  intros Heq. pose proof (LoadMode_call_value m) as Hm.
  rewrite Heq, LoadMode_call_value in Hm. congruence.
Qed.

Lemma LoadMode_in_range (v : Z) :
  0x00 <= v <= 0x11 -> exists m, LoadMode_call v = Ok m.
Proof.
  intros Hv.
  assert (Hin : v ∈ seqZ 0 18) by (apply elem_of_seqZ; lia).
  clear Hv. revert v Hin. apply Forall_forall.
  let members := eval vm_compute in (seqZ 0 18) in
  change (seqZ 0 18) with members.
  repeat (constructor; [eexists; reflexivity |]). constructor.
Qed.

Lemma LoadMode_defined (v : Z) :
  (exists m, LoadMode_value m = v) <-> 0x00 <= v <= 0x11.
Proof.
  split.
  - intros [m <-]. apply LoadMode_value_range.
  - intros Hv. destruct (LoadMode_in_range v Hv) as [m Hm].
    exists m. now apply LoadMode_call_Ok.
Qed.

Lemma set_load_mode_member (m : LoadMode) (dev : Instrument) :
  set_load_mode (PyMember m) dev
  = (Ok tt,
     {| holding := holding dev;
        written := written dev ++ [Request 0xE01D (LoadMode_value m) 0x06];
        stdout := stdout dev ++
                  ["setting load mode to: " ++ " " ++ format_int (LoadMode_value m)] |}).
Proof. destruct m; reflexivity. Qed.

(** C6: the enumeration carries exactly the wire values 0x00 for
    SOLE_LIGHT_CONTROL, 0x01 to 0x0E for DELAY_1_HR to DELAY_14_HR in
    sequence, 0x0F for MANUAL, 0x10 for DEBUG and 0x11 for ALWAYS_ON: eighteen
    members, one for each value from 0x00 to 0x11, and no other. *)
Theorem LoadMode_wire_values :
  LoadMode_call 0x00 = Ok SOLE_LIGHT_CONTROL /\
  (forall k : Z, 0x01 <= k <= 0x0E ->
     exists m, LoadMode_call k = Ok m /\
               LoadMode_name m = "DELAY_" ++ format_int k ++ "_HR") /\
  LoadMode_call 0x0F = Ok MANUAL /\
  LoadMode_call 0x10 = Ok DEBUG /\
  LoadMode_call 0x11 = Ok ALWAYS_ON /\
  (forall m : LoadMode, In m LoadMode_members) /\
  List.length LoadMode_members = 18%nat /\
  (forall m m' : LoadMode, LoadMode_value m = LoadMode_value m' -> m = m') /\
  (forall v : Z, (exists m, LoadMode_value m = v) <-> 0x00 <= v <= 0x11) /\
  (forall v : Z, ~ 0x00 <= v <= 0x11 -> LoadMode_call v = Raise ValueError).
Proof.
  split; [reflexivity |].
  split.
  { intros k Hk.
    assert (Hin : k ∈ seqZ 1 14) by (apply elem_of_seqZ; lia).
    clear Hk. revert k Hin. apply Forall_forall.
    let delays := eval vm_compute in (seqZ 1 14) in
    change (seqZ 1 14) with delays.
    repeat (constructor; [eexists; split; reflexivity |]). constructor. }
  split; [reflexivity |].
  split; [reflexivity |].
  split; [reflexivity |].
  split; [intros m; destruct m; simpl; tauto |].
  split; [reflexivity |].
  split; [exact LoadMode_value_inj |].
  split; [exact LoadMode_defined |].
  intros v Hout. apply LoadMode_call_missing.
  intros m Heq. apply Hout. rewrite <- Heq. apply LoadMode_value_range.
Qed.

(** C5: for every defined wire value v, decoding v, encoding the member
    found and decoding again gives a member that encodes to v; on the
    instrument: the mode read from register 0xE01D, handed to set_load_mode,
    writes v back to that register. *)
Theorem LoadMode_round_trip (v : Z) :
  (exists m, LoadMode_value m = v) ->
  (exists m1 m2 : LoadMode,
      LoadMode_call v = Ok m1 /\
      LoadMode_call (LoadMode_value m1) = Ok m2 /\
      LoadMode_value m2 = v) /\
  (forall dev : Instrument,
      holding dev 0xE01D = v ->
      exists m : LoadMode,
        load_mode dev = (Ok m, dev) /\
        fst (set_load_mode (PyMember m) dev) = Ok tt /\
        written (snd (set_load_mode (PyMember m) dev))
        = (written dev ++ [Request 0xE01D v 0x06])%list).
Proof.
  intros [m <-]. split.
  - exists m, m. rewrite !LoadMode_call_value. auto.
  - intros dev Hreg. exists m.
    rewrite set_load_mode_member. simpl.
    unfold load_mode, mbind, M_bind, read_register, lift.
    rewrite Hreg, LoadMode_call_value. auto.
Qed.

(** C5 at the wire value 0x0F. *)
Lemma LoadMode_round_trip_witness :
  exists m1 m2 : LoadMode,
    LoadMode_call 0x0F = Ok m1 /\
    LoadMode_call (LoadMode_value m1) = Ok m2 /\
    LoadMode_value m2 = 0x0F.
Proof.
  exact (proj1 (LoadMode_round_trip 0x0F (ex_intro _ MANUAL eq_refl))).
Defined.

(** C4, as the claim states it, fails: 0x12 is no LoadMode wire value, yet
    an argument whose value attribute is 0x12 is not rejected by
    set_load_mode; the write of 0x12 to register 0xE01D is handed to the
    transport. *)
Lemma set_load_mode_writes_0x12 :
  LoadMode_call 0x12 = Raise ValueError /\
  fst (set_load_mode (PyObject [("value", 0x12)]) (fresh (registers_of [])))
    = Ok tt /\
  written (snd (set_load_mode (PyObject [("value", 0x12)])
                              (fresh (registers_of []))))
    = [Request 0xE01D 0x12 0x06].
Proof. repeat split; reflexivity. Qed.

(** C4, amended: for every raw register value that matches no LoadMode wire
    value, load_mode fails with ValueError instead of returning a coerced
    value.  set_load_mode makes no membership check of its own: given a
    bare integer it fails with AttributeError before anything is printed or
    written, and given a LoadMode member, the type it is annotated with, it
    writes that member's wire value, which is always a defined one. *)
Theorem load_mode_validation (dev : Instrument) :
  ((forall m, LoadMode_value m <> holding dev 0xE01D) ->
   load_mode dev = (Raise ValueError, dev)) /\
  (forall n : Z, set_load_mode (PyInt n) dev = (Raise AttributeError, dev)) /\
  (forall m : LoadMode,
      fst (set_load_mode (PyMember m) dev) = Ok tt /\
      written (snd (set_load_mode (PyMember m) dev))
      = (written dev ++ [Request 0xE01D (LoadMode_value m) 0x06])%list /\
      LoadMode_call (LoadMode_value m) = Ok m).
Proof.
  split; [| split].
  - intros Hmissing. unfold load_mode, mbind, M_bind, read_register, lift.
    now rewrite LoadMode_call_missing.
  - intros n. reflexivity.
  - intros m. rewrite set_load_mode_member, LoadMode_call_value. auto.
Qed.

(** The amended C4 at the raw value 0x12. *)
Lemma load_mode_validation_witness :
  load_mode (fresh (registers_of [(0xE01D, 0x12)]))
  = (Raise ValueError, fresh (registers_of [(0xE01D, 0x12)])).
Proof.
  apply (proj1 (load_mode_validation (fresh (registers_of [(0xE01D, 0x12)])))).
  intros m. destruct m; vm_compute; intros Heq; discriminate Heq.
Defined.

(** ** Battery voltage (register 257) *)

(** The method looks at register 257 only and leaves the instrument as it
    found it. *)
Lemma battery_voltage_eq (dev : Instrument) :
  battery_voltage dev
  = (fst (battery_voltage (fresh (fun _ => holding dev 257))), dev).
Proof. reflexivity. Qed.

Lemma all_words_iter (p : Z -> bool) (k : nat) :
  fst (Nat.iter k (words_step p) (0, true)) = Z.of_nat k /\
  (snd (Nat.iter k (words_step p) (0, true)) = true ->
   forall w, 0 <= w < Z.of_nat k -> p w = true).
Proof.
  induction k as [| k [Hcount Hbelow]].
  - split; [reflexivity | intros _ w Hw; simpl in Hw; lia].
  - rewrite Nat.iter_succ. unfold words_step at 1 3. simpl fst. simpl snd.
    split; [rewrite Hcount; lia |].
    intros Hand w Hw. apply andb_prop in Hand as [Hall Hlast].
    destruct (Z.eq_dec w (Z.of_nat k)) as [-> | Hne].
    + now rewrite Hcount in Hlast.
    + apply Hbelow; [assumption | lia].
Qed.

Lemma all_words_spec (p : Z -> bool) (n : positive) (w : Z) :
  all_words p n = true -> 0 <= w < Z.pos n -> p w = true.
Proof.
  unfold all_words. rewrite Pos2Nat.inj_iter. intros Hall Hw.
  apply (all_words_iter p (Pos.to_nat n)); [assumption |].
  rewrite positive_nat_Z. assumption.
Qed.

Lemma battery_voltage_rounding_all :
  all_words battery_voltage_rounding 65536 = true.
Proof. vm_compute. reflexivity. Qed.

Lemma battery_voltage_rounding_word (w : Z) :
  0 <= w < 65536 -> battery_voltage_rounding w = true.
Proof. apply all_words_spec, battery_voltage_rounding_all. Qed.

(** C7, as the claim states it, fails: for the word 1 the method returns
    the float nearest to one tenth, whose exact value is
    3602879701896397 / 2^55 and not the rational 1/10. *)
Lemma battery_voltage_0x0001_is_not_a_tenth :
  exact_result (fst (battery_voltage (fresh (registers_of [(257, 1)]))))
    = Some (7205759403792794 # 72057594037927936)%Q /\
  ~ (7205759403792794 # 72057594037927936 == 1 # 10)%Q.
Proof.
  split.
  - vm_compute. reflexivity.
  - intros Heq. vm_compute in Heq. discriminate Heq.
Qed.

(** C7, amended: for every raw 16-bit word w, battery_voltage returns the
    binary64 float w / 10.0: a finite float within relative error 2^-53 of
    the rational w/10, equal to that rational exactly when w is a multiple
    of 5. *)
Theorem battery_voltage_is_rounded (dev : Instrument) :
  0 <= holding dev 257 < 65536 ->
  let w := holding dev 257 in
  exists (f : float) (q : Q),
    battery_voltage dev = (Ok f, dev) /\
    float_to_Q f = Some q /\
    (Qabs (q - (w # 10)) * inject_Z (2 ^ 53) <= w # 10)%Q /\
    ((q == w # 10)%Q <-> w mod 5 = 0).
Proof.
  intros Hw w. apply battery_voltage_rounding_word in Hw. fold w in Hw.
  rewrite battery_voltage_eq. fold w.
  unfold battery_voltage_rounding in Hw.
  destruct (fst (battery_voltage (fresh (fun _ => w)))) as [f | e];
    simpl exact_result in Hw; [| discriminate].
  destruct (float_to_Q f) as [q |] eqn:Hexact; [| discriminate].
  apply andb_prop in Hw as [Hclose Hsame].
  exists f, q. split; [reflexivity |]. split; [assumption |].
  split.
  - now apply Qle_bool_iff.
  - apply Bool.eqb_prop in Hsame.
    rewrite <- Qeq_bool_iff, Hsame. apply Z.eqb_eq.
Qed.

(** The amended C7 at the word 125 (12.5 volts). *)
Lemma battery_voltage_is_rounded_witness :
  exists (f : float) (q : Q),
    battery_voltage (fresh (registers_of [(257, 125)]))
      = (Ok f, fresh (registers_of [(257, 125)])) /\
    float_to_Q f = Some q /\
    (Qabs (q - (125 # 10)) * inject_Z (2 ^ 53) <= 125 # 10)%Q /\
    ((q == 125 # 10)%Q <-> 125 mod 5 = 0).
Proof.
  exact (battery_voltage_is_rounded (fresh (registers_of [(257, 125)]))
           ltac:(word_range)).
Defined.

(** * Further properties of the driver *)

(** ** Byte-sized readings *)

(** X1: battery_percentage returns the low byte of register 256 whatever
    the register holds: a value in [0, 255] congruent to the register modulo
    256, so a register of at most 255 comes back as it is; nothing clamps
    the reading to 100. *)
Theorem battery_percentage_low_byte (dev : Instrument) :
  exists p : Z,
    battery_percentage dev = (Ok p, dev) /\
    0 <= p <= 255 /\
    (holding dev 256 - p) mod 256 = 0 /\
    (0 <= holding dev 256 <= 255 -> p = holding dev 256) /\
    (forall dev' : Instrument,
        (holding dev 256 - holding dev' 256) mod 256 = 0 ->
        fst (battery_percentage dev') = Ok p).
Proof.
  exists (holding dev 256 mod 256).
  unfold battery_percentage, mbind, M_bind, read_register, mret, M_ret.
  rewrite land_0xff. split; [reflexivity |].
  split; [Z.to_euclidean_division_equations; lia |].
  split; [Z.to_euclidean_division_equations; lia |].
  split; [intros Hsmall; Z.to_euclidean_division_equations; lia |].
  intros dev' Hsame. simpl. rewrite land_0xff. f_equal.
  Z.to_euclidean_division_equations; lia.
Qed.

(** X2: voltage_setting splits register 57347 without loss: the register is
    setting * 256 + recognized_voltage, the recognized voltage lies in
    [0, 255] and, for a 16-bit register, so does the setting; two registers
    that give the same pair are equal. *)
Theorem voltage_setting_lossless (dev : Instrument) :
  exists setting recognized_voltage : Z,
    voltage_setting dev = (Ok (setting, recognized_voltage), dev) /\
    holding dev 57347 = setting * 256 + recognized_voltage /\
    0 <= recognized_voltage <= 255 /\
    (0 <= holding dev 57347 < 65536 -> 0 <= setting <= 255) /\
    (forall dev' : Instrument,
        fst (voltage_setting dev') = Ok (setting, recognized_voltage) ->
        holding dev' 57347 = holding dev 57347).
Proof.
  exists (holding dev 57347 / 256), (holding dev 57347 mod 256).
  unfold voltage_setting, mbind, M_bind, read_register, mret, M_ret.
  rewrite land_0xff, shiftr_8. split; [reflexivity |].
  split; [Z.to_euclidean_division_equations; lia |].
  split; [Z.to_euclidean_division_equations; lia |].
  split; [intros Hword; Z.to_euclidean_division_equations; lia |].
  intros dev'. simpl. rewrite land_0xff, shiftr_8.
  intros [= Hhigh Hlow]. Z.to_euclidean_division_equations; lia.
Qed.

(** ** Temperatures: sign and collisions *)

(** X3: on a 16-bit register 259, two low bytes give the same battery
    temperature only when they are equal or are 0x00 and 0x80, and likewise
    two high bytes for the controller temperature; a temperature is negative
    exactly when its byte is above 0x80. *)
Theorem temperature_collisions (dev dev' : Instrument) :
  0 <= holding dev 259 < 65536 ->
  0 <= holding dev' 259 < 65536 ->
  let lo := Z.land (holding dev 259) 0xff in
  let lo' := Z.land (holding dev' 259) 0xff in
  let hi := Z.shiftr (holding dev 259) 8 in
  let hi' := Z.shiftr (holding dev' 259) 8 in
  (fst (battery_temperature dev) = fst (battery_temperature dev') ->
   lo = lo' \/ (lo = 0x00 /\ lo' = 0x80) \/ (lo = 0x80 /\ lo' = 0x00)) /\
  (fst (controller_temperature dev) = fst (controller_temperature dev') ->
   hi = hi' \/ (hi = 0x00 /\ hi' = 0x80) \/ (hi = 0x80 /\ hi' = 0x00)) /\
  (exists tb : Z, fst (battery_temperature dev) = Ok tb /\ (tb < 0 <-> 0x80 < lo)) /\
  (exists tc : Z, fst (controller_temperature dev) = Ok tc /\ (tc < 0 <-> 0x80 < hi)).
Proof.
  intros Hw Hw' lo lo' hi hi'.
  rewrite !battery_temperature_eq, !controller_temperature_eq by assumption.
  subst lo lo' hi hi'. change 0xff with 0x00ff. slices. cbv zeta. simpl fst.
  assert (Hlo : 0 <= holding dev 259 mod 256 < 256) by (apply Z.mod_pos_bound; lia).
  assert (Hlo' : 0 <= holding dev' 259 mod 256 < 256) by (apply Z.mod_pos_bound; lia).
  assert (Hhi : 0 <= holding dev 259 / 256 < 256)
    by (Z.to_euclidean_division_equations; lia).
  assert (Hhi' : 0 <= holding dev' 259 / 256 < 256)
    by (Z.to_euclidean_division_equations; lia).
  revert Hlo Hlo' Hhi Hhi'.
  generalize (holding dev 259 mod 256) (holding dev' 259 mod 256)
             (holding dev 259 / 256) (holding dev' 259 / 256).
  intros a a' b b' Ha Ha' Hb Hb'.
  split; [| split; [| split]].
  - intros [= Heq]. revert Heq.
    destruct (Z.ltb_spec a 128), (Z.ltb_spec a' 128); lia.
  - intros [= Heq]. revert Heq.
    destruct (Z.ltb_spec b 128), (Z.ltb_spec b' 128); lia.
  - eexists. split; [reflexivity |]. destruct (Z.ltb_spec a 128); lia.
  - eexists. split; [reflexivity |]. destruct (Z.ltb_spec b 128); lia.
Qed.

(** X3 at the registers 0x0080 and 0x0000, whose low bytes collide. *)
Lemma temperature_collisions_witness :
  fst (battery_temperature (fresh (registers_of [(259, 0x0080)])))
  = fst (battery_temperature (fresh (registers_of [(259, 0x0000)]))) /\
  (Z.land 0x0080 0xff = Z.land 0x0000 0xff \/
   (Z.land 0x0080 0xff = 0x00 /\ Z.land 0x0000 0xff = 0x80) \/
   (Z.land 0x0080 0xff = 0x80 /\ Z.land 0x0000 0xff = 0x00)).
Proof.
  split; [reflexivity |].
  exact (proj1 (temperature_collisions
                  (fresh (registers_of [(259, 0x0080)]))
                  (fresh (registers_of [(259, 0x0000)]))
                  ltac:(word_range) ltac:(word_range)) eq_refl).
Defined.

(** ** Labels of known codes *)

Lemma BATTERY_TYPE_known (code : Z) :
  is_Some (BATTERY_TYPE !! code) <-> 1 <= code <= 5.
Proof.
  rewrite <- not_eq_None_Some, BATTERY_TYPE_missing.
  destruct (decide (1 <= code <= 5)); tauto.
Qed.

Lemma CHARGING_STATE_known (code : Z) :
  is_Some (CHARGING_STATE !! code) <-> 0 <= code <= 6.
Proof.
  rewrite <- not_eq_None_Some, CHARGING_STATE_missing.
  destruct (decide (0 <= code <= 6)); tauto.
Qed.

Lemma BATTERY_TYPE_inj (code code' : Z) (label : string) :
  BATTERY_TYPE !! code = Some label ->
  BATTERY_TYPE !! code' = Some label ->
  code = code'.
Proof.
  intros Hcode Hcode'.
  assert (Hrange : 1 <= code <= 5) by (apply BATTERY_TYPE_known; eauto).
  assert (Hrange' : 1 <= code' <= 5) by (apply BATTERY_TYPE_known; eauto).
  assert (Hcases : code = 1 \/ code = 2 \/ code = 3 \/ code = 4 \/ code = 5) by lia.
  assert (Hcases' : code' = 1 \/ code' = 2 \/ code' = 3 \/ code' = 4 \/ code' = 5)
    by lia.
  clear Hrange Hrange'.
  destruct Hcases as [-> | [-> | [-> | [-> | ->]]]];
    vm_compute in Hcode; injection Hcode as <-;
    destruct Hcases' as [-> | [-> | [-> | [-> | ->]]]];
    vm_compute in Hcode'; first [reflexivity | discriminate Hcode'].
Qed.

Lemma CHARGING_STATE_inj (code code' : Z) (label : string) :
  CHARGING_STATE !! code = Some label ->
  CHARGING_STATE !! code' = Some label ->
  code = code'.
Proof.
  intros Hcode Hcode'.
  assert (Hrange : 0 <= code <= 6) by (apply CHARGING_STATE_known; eauto).
  assert (Hrange' : 0 <= code' <= 6) by (apply CHARGING_STATE_known; eauto).
  assert (Hcases : code = 0 \/ code = 1 \/ code = 2 \/ code = 3 \/ code = 4
                   \/ code = 5 \/ code = 6) by lia.
  assert (Hcases' : code' = 0 \/ code' = 1 \/ code' = 2 \/ code' = 3 \/ code' = 4
                    \/ code' = 5 \/ code' = 6) by lia.
  clear Hrange Hrange'.
  destruct Hcases as [-> | [-> | [-> | [-> | [-> | [-> | ->]]]]]];
    vm_compute in Hcode; injection Hcode as <-;
    destruct Hcases' as [-> | [-> | [-> | [-> | [-> | [-> | ->]]]]]];
    vm_compute in Hcode'; first [reflexivity | discriminate Hcode'].
Qed.

(** X4: charging_status_label looks only at the low byte of register 288:
    it returns a label exactly when that byte is one of the codes 0 to 6,
    whatever the high byte holds, and a label it returns determines the
    byte. *)
Theorem charging_status_label_known (dev : Instrument) :
  let code := Z.land (holding dev 288) 0x00ff in
  exists label : option string,
    charging_status_label dev = (Ok label, dev) /\
    charging_status dev = (Ok code, dev) /\
    0 <= code <= 255 /\
    (is_Some label <-> 0 <= code <= 6) /\
    (forall dev' : Instrument,
        is_Some label ->
        fst (charging_status_label dev') = Ok label ->
        Z.land (holding dev' 288) 0x00ff = code).
Proof.
  intros code. exists (CHARGING_STATE !! code).
  split; [reflexivity |]. split; [reflexivity |].
  split; [subst code; rewrite land_0xff; Z.to_euclidean_division_equations; lia |].
  split; [apply CHARGING_STATE_known |].
  intros dev' [label Hlabel].
  unfold charging_status_label, charging_status.
  unfold mbind, M_bind, read_register, mret, M_ret. simpl fst.
  intros [= Hsame]. rewrite Hlabel in Hsame.
  exact (CHARGING_STATE_inj _ _ _ Hsame Hlabel).
Qed.

(** X5: battery_type looks the whole register 57348 up, without masking: it
    returns a label exactly when the register is one of the codes 1 to 5;
    a register from 256 on gives None even when its low byte is such a
    code; a label it returns determines the register. *)
Theorem battery_type_known (dev : Instrument) :
  exists label : option string,
    battery_type dev = (Ok label, dev) /\
    (is_Some label <-> 1 <= holding dev 57348 <= 5) /\
    (256 <= holding dev 57348 -> label = None) /\
    (forall dev' : Instrument,
        is_Some label ->
        fst (battery_type dev') = Ok label ->
        holding dev' 57348 = holding dev 57348).
Proof.
  exists (BATTERY_TYPE !! holding dev 57348).
  split; [reflexivity |].
  split; [apply BATTERY_TYPE_known |].
  split; [intros Hhigh; apply BATTERY_TYPE_missing; lia |].
  intros dev' [label Hlabel].
  unfold battery_type, mbind, M_bind, read_register, mret, M_ret. simpl fst.
  intros [= Hsame]. rewrite Hlabel in Hsame.
  exact (BATTERY_TYPE_inj _ _ _ Hsame Hlabel).
Qed.

(** ** Scaled readings: voltages and currents *)

Lemma read_voltage_eq (which : voltage_reading) (dev : Instrument) :
  read_voltage which dev
  = (fst (battery_voltage (fresh (fun _ => holding dev (voltage_register which)))),
     dev).
Proof. destruct which; reflexivity. Qed.

Lemma read_current_eq (which : current_reading) (dev : Instrument) :
  read_current which dev
  = (fst (load_current (fresh (fun _ => holding dev (current_register which)))),
     dev).
Proof. destruct which; reflexivity. Qed.

Lemma load_current_rounding_all :
  all_words load_current_rounding 65536 = true.
Proof. vm_compute. reflexivity. Qed.

(** The float read with one decimal from a register holding [w]. *)
Lemma tenths_rounded (w : Z) :
  0 <= w < 65536 ->
  exists (f : float) (q : Q),
    fst (battery_voltage (fresh (fun _ => w))) = Ok f /\
    float_to_Q f = Some q /\
    (Qabs (q - (w # 10)) * inject_Z (2 ^ 53) <= w # 10)%Q /\
    ((q == w # 10)%Q <-> w mod 5 = 0).
Proof.
  intros Hw. apply battery_voltage_rounding_word in Hw.
  unfold battery_voltage_rounding in Hw.
  destruct (fst (battery_voltage (fresh (fun _ => w)))) as [f | e];
    simpl exact_result in Hw; [| discriminate].
  destruct (float_to_Q f) as [q |] eqn:Hexact; [| discriminate].
  apply andb_prop in Hw as [Hclose Hsame].
  exists f, q. split; [reflexivity |]. split; [assumption |].
  split; [now apply Qle_bool_iff |].
  apply Bool.eqb_prop in Hsame. rewrite <- Qeq_bool_iff, Hsame. apply Z.eqb_eq.
Qed.

(** The float read with two decimals from a register holding [w]. *)
Lemma hundredths_rounded (w : Z) :
  0 <= w < 65536 ->
  exists (f : float) (q : Q),
    fst (load_current (fresh (fun _ => w))) = Ok f /\
    float_to_Q f = Some q /\
    (Qabs (q - (w # 100)) * inject_Z (2 ^ 53) <= w # 100)%Q /\
    ((q == w # 100)%Q <-> w mod 25 = 0).
Proof.
  intros Hw.
  apply (all_words_spec _ _ _ load_current_rounding_all) in Hw.
  unfold load_current_rounding in Hw.
  destruct (fst (load_current (fresh (fun _ => w)))) as [f | e];
    simpl exact_result in Hw; [| discriminate].
  destruct (float_to_Q f) as [q |] eqn:Hexact; [| discriminate].
  apply andb_prop in Hw as [Hclose Hsame].
  exists f, q. split; [reflexivity |]. split; [assumption |].
  split; [now apply Qle_bool_iff |].
  apply Bool.eqb_prop in Hsame. rewrite <- Qeq_bool_iff, Hsame. apply Z.eqb_eq.
Qed.

(** Two roundings within relative error 2^-53 keep the order of the
    rationals they round, when those are far enough apart. *)
Lemma rounded_order (a a' q q' : Q) :
  (Qabs (q - a) * inject_Z (2 ^ 53) <= a)%Q ->
  (Qabs (q' - a') * inject_Z (2 ^ 53) <= a')%Q ->
  (a + a' < (a' - a) * inject_Z (2 ^ 53))%Q ->
  (q < q')%Q.
Proof.
  intros Hq Hq' Hgap.
  change (inject_Z (2 ^ 53)) with (9007199254740992 # 1)%Q in *.
  assert (Hup : ((q - a) * (9007199254740992 # 1) <= a)%Q).
  { eapply Qle_trans; [| exact Hq].
    apply Qmult_le_compat_r; [apply Qle_Qabs | discriminate]. }
  assert (Hdown : ((a' - q') * (9007199254740992 # 1) <= a')%Q).
  { eapply Qle_trans; [| exact Hq'].
    apply Qmult_le_compat_r; [| discriminate].
    rewrite <- Qabs_opp. eapply Qle_trans; [| apply Qle_Qabs].
    apply Qle_lteq. right. ring. }
  lra.
Qed.

Lemma tenths_gap (w w' : Z) :
  0 <= w < w' -> w' < 65536 ->
  ((w # 10) + (w' # 10) < ((w' # 10) - (w # 10)) * inject_Z (2 ^ 53))%Q.
Proof.
  intros Hw Hw'. unfold Qlt, Qplus, Qminus, Qmult, Qopp, inject_Z.
  cbn -[Z.mul Z.add Z.pow]. change (2 ^ 53) with 9007199254740992. lia.
Qed.

Lemma hundredths_gap (w w' : Z) :
  0 <= w < w' -> w' < 65536 ->
  ((w # 100) + (w' # 100) < ((w' # 100) - (w # 100)) * inject_Z (2 ^ 53))%Q.
Proof.
  intros Hw Hw'. unfold Qlt, Qplus, Qminus, Qmult, Qopp, inject_Z.
  cbn -[Z.mul Z.add Z.pow]. change (2 ^ 53) with 9007199254740992. lia.
Qed.

(** X6: load_voltage and solar_voltage (like battery_voltage) return, for a
    16-bit register w, a finite float within relative error 2^-53 of the
    rational w/10, equal to it exactly when w is a multiple of 5, and leave
    the instrument as it was. *)
Theorem voltage_readings_rounded (which : voltage_reading) (dev : Instrument) :
  0 <= holding dev (voltage_register which) < 65536 ->
  let w := holding dev (voltage_register which) in
  exists (f : float) (q : Q),
    read_voltage which dev = (Ok f, dev) /\
    float_to_Q f = Some q /\
    (Qabs (q - (w # 10)) * inject_Z (2 ^ 53) <= w # 10)%Q /\
    ((q == w # 10)%Q <-> w mod 5 = 0).
Proof.
  intros Hw w. destruct (tenths_rounded w Hw) as (f & q & Hf & Hrest).
  exists f, q. split; [| exact Hrest].
  rewrite read_voltage_eq. fold w. now rewrite Hf.
Qed.

(** X6 on the solar voltage of the sample device (register 263 holds 185). *)
Lemma voltage_readings_rounded_witness :
  exists (f : float) (q : Q),
    solar_voltage sample_device = (Ok f, sample_device) /\
    float_to_Q f = Some q /\
    (Qabs (q - (185 # 10)) * inject_Z (2 ^ 53) <= 185 # 10)%Q /\
    ((q == 185 # 10)%Q <-> 185 mod 5 = 0).
Proof.
  exact (voltage_readings_rounded SolarVoltage sample_device ltac:(word_range)).
Defined.

(** X7: voltage readings keep the order of the registers they come from:
    for 16-bit registers, one reading is below another (as exact values)
    exactly when its register is, and two readings are the same float exactly
    when the registers are equal.  This holds within one kind of voltage and
    across kinds, as when the solar voltage is compared with the load
    voltage. *)
Theorem voltage_readings_ordered
    (which which' : voltage_reading) (dev dev' : Instrument) :
  0 <= holding dev (voltage_register which) < 65536 ->
  0 <= holding dev' (voltage_register which') < 65536 ->
  let w := holding dev (voltage_register which) in
  let w' := holding dev' (voltage_register which') in
  exists (f f' : float) (q q' : Q),
    read_voltage which dev = (Ok f, dev) /\
    read_voltage which' dev' = (Ok f', dev') /\
    float_to_Q f = Some q /\
    float_to_Q f' = Some q' /\
    (w < w' <-> (q < q')%Q) /\
    (w = w' <-> f = f').
Proof.
  intros Hw Hw' w w'.
  destruct (tenths_rounded w Hw) as (f & q & Hf & Hq & Hclose & _).
  destruct (tenths_rounded w' Hw') as (f' & q' & Hf' & Hq' & Hclose' & _).
  exists f, f', q, q'.
  rewrite !read_voltage_eq. fold w w'. rewrite Hf, Hf'.
  split; [reflexivity |]. split; [reflexivity |].
  split; [assumption |]. split; [assumption |].
  assert (Hup : forall (x x' : Z) (y y' : Q),
             0 <= x < x' -> x' < 65536 ->
             (Qabs (y - (x # 10)) * inject_Z (2 ^ 53) <= x # 10)%Q ->
             (Qabs (y' - (x' # 10)) * inject_Z (2 ^ 53) <= x' # 10)%Q ->
             (y < y')%Q).
  { intros x x' y y' Hx Hx' Hy Hy'.
    exact (rounded_order _ _ _ _ Hy Hy' (tenths_gap x x' Hx Hx')). }
  assert (Hsame : w = w' -> f = f').
  { intros Heq. rewrite Heq in Hf. congruence. }
  split; split.
  - intros Hlt. apply (Hup w w' q q'); [lia | lia | assumption | assumption].
  - intros Hlt. destruct (Z.lt_trichotomy w w') as [Hless | [Heq | Hmore]].
    + assumption.
    + apply Hsame in Heq. subst f'. rewrite Hq in Hq'. injection Hq' as <-.
      now apply Qlt_irrefl in Hlt.
    + assert (Hgt : (q' < q)%Q)
        by (apply (Hup w' w q' q); [lia | lia | assumption | assumption]).
      destruct (Qlt_irrefl q). now apply Qlt_trans with q'.
  - exact Hsame.
  - intros Heq. subst f'. rewrite Hq in Hq'. injection Hq' as <-.
    destruct (Z.lt_trichotomy w w') as [Hless | [Hequal | Hmore]].
    + assert (Hlt : (q < q)%Q)
        by (apply (Hup w w' q q); [lia | lia | assumption | assumption]).
      now apply Qlt_irrefl in Hlt.
    + assumption.
    + assert (Hlt : (q < q)%Q)
        by (apply (Hup w' w q q); [lia | lia | assumption | assumption]).
      now apply Qlt_irrefl in Hlt.
Qed.

(** X7 on the sample device: the load voltage (121) against the solar
    voltage (185). *)
Lemma voltage_readings_ordered_witness :
  exists (f f' : float) (q q' : Q),
    load_voltage sample_device = (Ok f, sample_device) /\
    solar_voltage sample_device = (Ok f', sample_device) /\
    float_to_Q f = Some q /\
    float_to_Q f' = Some q' /\
    (121 < 185 <-> (q < q')%Q) /\
    (121 = 185 <-> f = f').
Proof.
  exact (voltage_readings_ordered LoadVoltage SolarVoltage
           sample_device sample_device ltac:(word_range) ltac:(word_range)).
Defined.

(** X8: load_current and solar_current return, for a 16-bit register w, a
    finite float within relative error 2^-53 of the rational w/100, equal to
    it exactly when w is a multiple of 25, and leave the instrument as it
    was. *)
Theorem current_readings_rounded (which : current_reading) (dev : Instrument) :
  0 <= holding dev (current_register which) < 65536 ->
  let w := holding dev (current_register which) in
  exists (f : float) (q : Q),
    read_current which dev = (Ok f, dev) /\
    float_to_Q f = Some q /\
    (Qabs (q - (w # 100)) * inject_Z (2 ^ 53) <= w # 100)%Q /\
    ((q == w # 100)%Q <-> w mod 25 = 0).
Proof.
  intros Hw w. destruct (hundredths_rounded w Hw) as (f & q & Hf & Hrest).
  exists f, q. split; [| exact Hrest].
  rewrite read_current_eq. fold w. now rewrite Hf.
Qed.

(** X8 on the load current of the sample device (register 261 holds 40). *)
Lemma current_readings_rounded_witness :
  exists (f : float) (q : Q),
    load_current sample_device = (Ok f, sample_device) /\
    float_to_Q f = Some q /\
    (Qabs (q - (40 # 100)) * inject_Z (2 ^ 53) <= 40 # 100)%Q /\
    ((q == 40 # 100)%Q <-> 40 mod 25 = 0).
Proof.
  exact (current_readings_rounded LoadCurrent sample_device ltac:(word_range)).
Defined.

(** X9: current readings keep the order of their registers: for 16-bit
    registers, one reading is below another exactly when its register is,
    and two readings are the same float exactly when the registers are
    equal. *)
Theorem current_readings_ordered
    (which which' : current_reading) (dev dev' : Instrument) :
  0 <= holding dev (current_register which) < 65536 ->
  0 <= holding dev' (current_register which') < 65536 ->
  let w := holding dev (current_register which) in
  let w' := holding dev' (current_register which') in
  exists (f f' : float) (q q' : Q),
    read_current which dev = (Ok f, dev) /\
    read_current which' dev' = (Ok f', dev') /\
    float_to_Q f = Some q /\
    float_to_Q f' = Some q' /\
    (w < w' <-> (q < q')%Q) /\
    (w = w' <-> f = f').
Proof.
  intros Hw Hw' w w'.
  destruct (hundredths_rounded w Hw) as (f & q & Hf & Hq & Hclose & _).
  destruct (hundredths_rounded w' Hw') as (f' & q' & Hf' & Hq' & Hclose' & _).
  exists f, f', q, q'.
  rewrite !read_current_eq. fold w w'. rewrite Hf, Hf'.
  split; [reflexivity |]. split; [reflexivity |].
  split; [assumption |]. split; [assumption |].
  assert (Hup : forall (x x' : Z) (y y' : Q),
             0 <= x < x' -> x' < 65536 ->
             (Qabs (y - (x # 100)) * inject_Z (2 ^ 53) <= x # 100)%Q ->
             (Qabs (y' - (x' # 100)) * inject_Z (2 ^ 53) <= x' # 100)%Q ->
             (y < y')%Q).
  { intros x x' y y' Hx Hx' Hy Hy'.
    exact (rounded_order _ _ _ _ Hy Hy' (hundredths_gap x x' Hx Hx')). }
  assert (Hsame : w = w' -> f = f').
  { intros Heq. rewrite Heq in Hf. congruence. }
  split; split.
  - intros Hlt. apply (Hup w w' q q'); [lia | lia | assumption | assumption].
  - intros Hlt. destruct (Z.lt_trichotomy w w') as [Hless | [Heq | Hmore]].
    + assumption.
    + apply Hsame in Heq. subst f'. rewrite Hq in Hq'. injection Hq' as <-.
      now apply Qlt_irrefl in Hlt.
    + assert (Hgt : (q' < q)%Q)
        by (apply (Hup w' w q' q); [lia | lia | assumption | assumption]).
      destruct (Qlt_irrefl q). now apply Qlt_trans with q'.
  - exact Hsame.
  - intros Heq. subst f'. rewrite Hq in Hq'. injection Hq' as <-.
    destruct (Z.lt_trichotomy w w') as [Hless | [Hequal | Hmore]].
    + assert (Hlt : (q < q)%Q)
        by (apply (Hup w w' q q); [lia | lia | assumption | assumption]).
      now apply Qlt_irrefl in Hlt.
    + assumption.
    + assert (Hlt : (q < q)%Q)
        by (apply (Hup w' w q q); [lia | lia | assumption | assumption]).
      now apply Qlt_irrefl in Hlt.
Qed.

(** X9 on the sample device: the load current (40) against the solar
    current (250). *)
Lemma current_readings_ordered_witness :
  exists (f f' : float) (q q' : Q),
    load_current sample_device = (Ok f, sample_device) /\
    solar_current sample_device = (Ok f', sample_device) /\
    float_to_Q f = Some q /\
    float_to_Q f' = Some q' /\
    (40 < 250 <-> (q < q')%Q) /\
    (40 = 250 <-> f = f').
Proof.
  exact (current_readings_ordered LoadCurrent SolarCurrent
           sample_device sample_device ltac:(word_range) ltac:(word_range)).
Defined.

(** ** Commands *)


Lemma set_load_run_written (commands : list bool) (dev : Instrument) :
  fst (set_load_run commands dev) = Ok tt /\
  written (snd (set_load_run commands dev))
    = (written dev ++
       List.map (fun on : bool => Request 0x010A (if on then 0x1 else 0x0) 0x06)
                commands)%list /\
  stdout (snd (set_load_run commands dev)) = stdout dev /\
  holding (snd (set_load_run commands dev)) = holding dev.
Proof.
  revert dev. induction commands as [| on rest IH]; intros dev.
  - simpl. rewrite app_nil_r. repeat split; reflexivity.
  - destruct on.
    + change (set_load_run (true :: rest) dev)
        with (set_load_run rest (snd (set_load_on dev))).
      destruct (IH (snd (set_load_on dev))) as (Hok & Hwritten & Hout & Hregs).
      rewrite Hok, Hwritten, Hout, Hregs.
      simpl. rewrite <- app_assoc. repeat split; reflexivity.
    + change (set_load_run (false :: rest) dev)
        with (set_load_run rest (snd (set_load_off dev))).
      destruct (IH (snd (set_load_off dev))) as (Hok & Hwritten & Hout & Hregs).
      rewrite Hok, Hwritten, Hout, Hregs.
      simpl. rewrite <- app_assoc. repeat split; reflexivity.
Qed.

(** X11: any run of set_load_on and set_load_off calls succeeds and appends
    one request for each call, in call order, all to register 0x010A with
    function code 6 and value 1 for on, 0 for off; earlier requests stay in
    place, nothing is printed, and the load-mode register 0xE01D is never
    addressed by the run. *)
Theorem set_load_run_requests (commands : list bool) (dev : Instrument) :
  fst (set_load_run commands dev) = Ok tt /\
  written (snd (set_load_run commands dev))
    = (written dev ++
       List.map (fun on : bool => Request 0x010A (if on then 0x1 else 0x0) 0x06)
                commands)%list /\
  stdout (snd (set_load_run commands dev)) = stdout dev /\
  (forall r : request,
      In r (written (snd (set_load_run commands dev))) ->
      In r (written dev) \/
      (registeraddress r = 0x010A /\ functioncode r = 0x06 /\
       (value r = 0 \/ value r = 1))) /\
  (forall on : bool,
      last (written (snd (set_load_run (commands ++ [on]) dev)))
      = Some (Request 0x010A (if on then 0x1 else 0x0) 0x06)).
Proof.
  destruct (set_load_run_written commands dev) as (Hok & Hwritten & Hout & _).
  split; [exact Hok |]. split; [exact Hwritten |]. split; [exact Hout |].
  split.
  - intros r. rewrite Hwritten, in_app_iff, in_map_iff.
    intros [Hold | (on & <- & _)]; [now left | right].
    destruct on; simpl; auto.
  - intros on.
    destruct (set_load_run_written (commands ++ [on]) dev) as (_ & Hrun & _).
    rewrite Hrun, map_app, app_assoc. simpl. apply last_snoc.
Qed.

(** X12: load_mode returns the member m exactly when register 0xE01D holds
    m's wire value; it succeeds exactly when the register is in 0x00..0x11
    and raises ValueError otherwise; in both cases the instrument is left as
    it was. *)
Theorem load_mode_exact (dev : Instrument) :
  (forall m : LoadMode,
      load_mode dev = (Ok m, dev) <-> LoadMode_value m = holding dev 0xE01D) /\
  ((exists m : LoadMode, load_mode dev = (Ok m, dev))
   <-> 0x00 <= holding dev 0xE01D <= 0x11) /\
  (load_mode dev = (Raise ValueError, dev)
   <-> ~ 0x00 <= holding dev 0xE01D <= 0x11) /\
  snd (load_mode dev) = dev.
Proof.
  unfold load_mode, mbind, M_bind, read_register, lift.
  assert (Hexact : forall m : LoadMode,
             LoadMode_call (holding dev 0xE01D) = Ok m
             <-> LoadMode_value m = holding dev 0xE01D).
  { intros m. split.
    - apply LoadMode_call_Ok.
    - intros <-. apply LoadMode_call_value. }
  split; [| split; [| split]].
  - intros m. rewrite <- Hexact. split; [intros [= ->] | intros ->]; reflexivity.
  - rewrite <- LoadMode_defined. split.
    + intros [m [= Hm]]. exists m. now apply Hexact.
    + intros [m Hm]. exists m. apply Hexact in Hm. now rewrite Hm.
  - rewrite <- LoadMode_defined. split.
    + intros [= Hraise] [m Hm]. apply Hexact in Hm. congruence.
    + intros Hnone. rewrite LoadMode_call_missing; [reflexivity |].
      intros m Hm. apply Hnone. now exists m.
  - reflexivity.
Qed.

(** ** Strings of digits *)

Lemma list_ascii_of_string_app (s t : string) :
  list_ascii_of_string (s ++ t)
  = (list_ascii_of_string s ++ list_ascii_of_string t)%list.
Proof. induction s as [| c s IH]; simpl; [reflexivity | now rewrite IH]. Qed.

Lemma list_ascii_of_string_inj (s t : string) :
  list_ascii_of_string s = list_ascii_of_string t -> s = t.
Proof.
  intros Heq. rewrite <- (string_of_list_ascii_of_string s).
  rewrite Heq. apply string_of_list_ascii_of_string.
Qed.

Lemma format_int_inj (n n' : Z) : format_int n = format_int n' -> n = n'.
Proof.
  intros Heq. pose proof (format_int_parse n) as Hn.
  rewrite Heq, format_int_parse in Hn. congruence.
Qed.

Lemma uint_digits (u : Decimal.uint) :
  Forall (fun c => is_digit c = true)
         (list_ascii_of_string (NilEmpty.string_of_uint u)).
Proof.
  induction u; simpl; constructor; try reflexivity; assumption.
Qed.

(** A number that is not negative prints as digits only. *)
Lemma format_int_digits (n : Z) :
  0 <= n ->
  Forall (fun c => is_digit c = true) (list_ascii_of_string (format_int n)).
Proof.
  intros Hn. unfold format_int. destruct n as [| p | p]; [| | lia].
  - repeat constructor.
  - unfold Z.to_int, NilZero.string_of_int, NilZero.string_of_uint.
    destruct (Pos.to_uint p) as [| u | u | u | u | u | u | u | u | u | u].
    + repeat constructor.
    + apply (uint_digits (Decimal.D0 u)).
    + apply (uint_digits (Decimal.D1 u)).
    + apply (uint_digits (Decimal.D2 u)).
    + apply (uint_digits (Decimal.D3 u)).
    + apply (uint_digits (Decimal.D4 u)).
    + apply (uint_digits (Decimal.D5 u)).
    + apply (uint_digits (Decimal.D6 u)).
    + apply (uint_digits (Decimal.D7 u)).
    + apply (uint_digits (Decimal.D8 u)).
    + apply (uint_digits (Decimal.D9 u)).
Qed.

(** Two lists that agree after a separator neither contains before it
    agree on both sides of it. *)
Lemma split_at_separator (c : ascii) (l l' t t' : list ascii) :
  ~ In c l -> ~ In c l' ->
  (l ++ c :: t = l' ++ c :: t')%list ->
  l = l' /\ t = t'.
Proof.
  revert l'. induction l as [| a l IH]; intros [| a' l'] Hl Hl' Heq;
    simpl in *.
  - injection Heq as ->. auto.
  - injection Heq as -> _. tauto.
  - injection Heq as -> _. tauto.
  - injection Heq as -> Heq.
    destruct (IH l') as [-> ->]; [tauto | tauto | assumption |]. auto.
Qed.

Lemma digits_have_no_dot (l : list ascii) :
  Forall (fun c => is_digit c = true) l -> ~ In "."%char l.
Proof.
  intros Hdigits Hin. rewrite Forall_forall in Hdigits.
  apply list_elem_of_In, Hdigits in Hin. discriminate Hin.
Qed.

(** The text "{}.{}.{}" determines its three numbers. *)
Lemma dotted_inj (a b c a' b' c' : Z) :
  0 <= a -> 0 <= b -> 0 <= a' -> 0 <= b' ->
  format_int a ++ "." ++ format_int b ++ "." ++ format_int c
  = format_int a' ++ "." ++ format_int b' ++ "." ++ format_int c' ->
  a = a' /\ b = b' /\ c = c'.
Proof.
  intros Ha Hb Ha' Hb' Heq.
  apply (f_equal list_ascii_of_string) in Heq.
  rewrite !list_ascii_of_string_app in Heq. simpl in Heq.
  apply split_at_separator in Heq as [Hmajor Heq];
    try (apply digits_have_no_dot, format_int_digits; assumption).
  apply split_at_separator in Heq as [Hminor Hpatch];
    try (apply digits_have_no_dot, format_int_digits; assumption).
  repeat split; apply format_int_inj, list_ascii_of_string_inj; assumption.
Qed.

(** Closes [0 <= w] on a closed term. *)
Ltac word_nonneg := vm_compute; intros Hcmp; discriminate Hcmp.

(** ** Version, serial number and model texts *)

(** X13: unlike the serial number, the version texts are unambiguous: with
    registers 21 and 23 not negative, two instruments report the same
    (software, hardware) pair exactly when registers 21 and 23 are equal
    and registers 20 and 22 agree in their low bytes; the high bytes of
    registers 20 and 22 never show. *)
Theorem version_determines_fields (dev dev' : Instrument) :
  0 <= holding dev 21 -> 0 <= holding dev 23 ->
  0 <= holding dev' 21 -> 0 <= holding dev' 23 ->
  (fst (version dev) = fst (version dev') <->
   Z.land (holding dev 20) 0xFF = Z.land (holding dev' 20) 0xFF /\
   holding dev 21 = holding dev' 21 /\
   Z.land (holding dev 22) 0xFF = Z.land (holding dev' 22) 0xFF /\
   holding dev 23 = holding dev' 23).
Proof.
  intros H1 H3 H1' H3'.
  assert (Hversion : forall d : Instrument,
    fst (version d) =
    Ok ("V" ++ format_int (Z.land (holding d 20) 0xFF) ++ "." ++
               format_int (Z.shiftr (holding d 21) 8) ++ "." ++
               format_int (Z.land (holding d 21) 0xFF),
        "V" ++ format_int (Z.land (holding d 22) 0xFF) ++ "." ++
               format_int (Z.shiftr (holding d 23) 8) ++ "." ++
               format_int (Z.land (holding d 23) 0xFF))) by reflexivity.
  rewrite !Hversion. clear Hversion.
  assert (Hland : forall w, 0 <= Z.land w 0xFF)
    by (intros w; apply Z.land_nonneg; right; lia).
  assert (Hshift : forall w, 0 <= w -> 0 <= Z.shiftr w 8)
    by (intros w Hw; now apply Z.shiftr_nonneg).
  assert (Hword : forall w w',
             Z.shiftr w 8 = Z.shiftr w' 8 -> Z.land w 0xFF = Z.land w' 0xFF ->
             w = w').
  { intros w w'. change 0xFF with 0x00ff. rewrite !land_0xff, !shiftr_8.
    intros Hhigh Hlow. Z.to_euclidean_division_equations; lia. }
  split.
  - intros [= Hsoft Hhard].
    apply dotted_inj in Hsoft as (Hs0 & Hs1 & Hs2); auto.
    apply dotted_inj in Hhard as (Hh0 & Hh1 & Hh2); auto.
  - intros (-> & -> & -> & ->). reflexivity.
Qed.

(** X13 on two instruments that differ only in the high byte of register
    20. *)
Lemma version_determines_fields_witness :
  fst (version (fresh (registers_of [(20, 0x0102); (21, 0x0304)])))
  = fst (version (fresh (registers_of [(20, 0xFF02); (21, 0x0304)]))).
Proof.
  apply (version_determines_fields
           (fresh (registers_of [(20, 0x0102); (21, 0x0304)]))
           (fresh (registers_of [(20, 0xFF02); (21, 0x0304)]))
           ltac:(word_nonneg) ltac:(word_nonneg)
           ltac:(word_nonneg) ltac:(word_nonneg)).
  repeat split; reflexivity.
Defined.

(** X14: two register pairs with the same serial number differ in both
    words or in none: with one word equal, the serial number determines the
    other.  For words that are not negative the serial number holds decimal
    digits only. *)
Theorem serial_number_one_word_fixed (dev dev' : Instrument) :
  fst (serial_number dev) = fst (serial_number dev') ->
  (holding dev 24 = holding dev' 24 <-> holding dev 25 = holding dev' 25) /\
  (0 <= holding dev 24 -> 0 <= holding dev 25 ->
   exists text : string,
     fst (serial_number dev) = Ok text /\
     Forall (fun c => is_digit c = true) (list_ascii_of_string text)).
Proof.
  assert (Hserial : forall d : Instrument,
    fst (serial_number d)
    = Ok (format_int (holding d 24) ++ format_int (holding d 25)))
    by reflexivity.
  rewrite !Hserial. intros [= Heq].
  apply (f_equal list_ascii_of_string) in Heq.
  rewrite !list_ascii_of_string_app in Heq.
  split; [split |].
  - intros Hfirst. rewrite Hfirst in Heq. apply app_inv_head in Heq.
    now apply format_int_inj, list_ascii_of_string_inj.
  - intros Hsecond. rewrite Hsecond in Heq. apply app_inv_tail in Heq.
    now apply format_int_inj, list_ascii_of_string_inj.
  - intros H0 H1. eexists. split; [reflexivity |].
    rewrite list_ascii_of_string_app. apply Forall_app.
    split; now apply format_int_digits.
Qed.

(** X14 on the pairs (7, 23) and (7, 23) read from two instruments. *)
Lemma serial_number_one_word_fixed_witness :
  (7 = 7 <-> 23 = 23) /\
  (0 <= 7 -> 0 <= 23 ->
   exists text : string,
     fst (serial_number (fresh (registers_of [(24, 7); (25, 23)]))) = Ok text /\
     Forall (fun c => is_digit c = true) (list_ascii_of_string text)).
Proof.
  exact (serial_number_one_word_fixed
           (fresh (registers_of [(24, 7); (25, 23)]))
           (fresh (registers_of [(25, 23); (24, 7)])) eq_refl).
Defined.

Lemma ord_chr (n : Z) : 0 <= n < 256 -> ord (chr n) = n.
Proof.
  intros Hn. unfold ord, chr.
  rewrite N_ascii_embedding by lia. lia.
Qed.

(** X15: model returns all sixteen characters of registers 12 to 19, two
    for each register with the high byte first, and strips nothing: the
    text always has length 16, and each 16-bit register can be read back
    from its two characters. *)
Theorem model_sixteen_characters (dev : Instrument) :
  exists text : string,
    model dev = (Ok text, dev) /\
    String.length text = 16%nat /\
    (forall i : nat,
        (i < 8)%nat ->
        0 <= holding dev (12 + Z.of_nat i) < 65536 ->
        exists high low : ascii,
          String.get (2 * i) text = Some high /\
          String.get (2 * i + 1) text = Some low /\
          ord high * 256 + ord low = holding dev (12 + Z.of_nat i)).
Proof.
  eexists. split; [reflexivity |]. split; [reflexivity |].
  assert (Hword : forall w, 0 <= w < 65536 ->
             ord (chr (Z.shiftr w 8)) * 256 + ord (chr (Z.land w 0xff)) = w).
  { intros w Hw. change 0xff with 0x00ff. rewrite land_0xff, shiftr_8.
    rewrite !ord_chr by (Z.to_euclidean_division_equations; lia).
    Z.to_euclidean_division_equations; lia. }
  intros i Hi Hw.
  do 8 (destruct i as [| i];
        [eexists _, _; split; [reflexivity |]; split; [reflexivity |];
         apply Hword; exact Hw |]).
  lia.
Qed.
